(** * go-epub: the Book aggregate and its owned documents

    A shallow embedding of [epub.go] (the [epub] struct, [NewEpub], the
    accessors and the metadata setters) together with the documents it
    owns.  Go pointers that may be nil are [option] values, a run-time
    panic (nil dereference) is the [Panics] outcome, and the two results
    of a Go function returning [(T, error)] are a pair. *)

From Stdlib Require Import Ascii DecimalString DecimalNat.
From stdpp Require Import gmap strings list.

Set Warnings "-register-all".

(** ** Outcomes of a call: normal return or panic *)

Inductive outcome (A : Type) : Type :=
  | Returns (a : A)
  | Panics.
Arguments Returns {A} a.
Arguments Panics {A}.

Definition obind {A B : Type} (m : outcome A) (k : A -> outcome B) : outcome B :=
  match m with
  | Returns a => k a
  | Panics => Panics
  end.

Notation "'do' x <- m ; k" := (obind m (fun x => k))
  (at level 10, x name, m at level 100, k at level 200).

(** Dereference of a pointer: nil panics. *)
Definition deref {A : Type} (p : option A) : outcome A :=
  match p with
  | Some a => Returns a
  | None => Panics
  end.

(** ** Errors *)

Inductive error : Type :=
  | DuplicateNameError
  | DuplicateIDError
  | UnknownManifestIDError
  | SourceUnreadableError
  | WriteFailedError
  | OtherError (msg : string).

(** ** The Package Document Model *)

Record manifest_entry : Type := ManifestEntry {
  me_id : string;
  me_href : string;
  me_media_type : string;
  me_properties : option string
}.

Module Pkgdoc.

(** Modelled from the spec: the [pkgdoc] struct is declared outside
    [epub.go].  The Package Document Model holds title, language,
    author, unique identifier, the manifest and the spine. *)
Record t : Type := Make {
  title : string;
  lang : string;
  author : string;
  uuid : string;
  manifest : list manifest_entry;
  spine : list string
}.

(** Modelled from the spec: [newPkgdoc] is defined outside [epub.go].
    The initial manifest holds the two fixed entries (navigation
    document and legacy navigation-control file); the spine is empty. *)
Definition newPkgdoc : option t :=
  Some {| title := ""; lang := ""; author := ""; uuid := "";
          manifest :=
            [ ManifestEntry "nav" "nav.xhtml" "application/xhtml+xml" (Some "nav");
              ManifestEntry "ncx" "toc.ncx" "application/x-dtbncx+xml" None ];
          spine := [] |}.

(** Modelled from the spec: the four setters are defined outside
    [epub.go]; each is a pure field replacement with no validation
    beyond a non-nil receiver. *)
Definition setAuthor (p : option t) (v : string) : outcome t :=
  do d <- deref p;
  Returns {| title := title d; lang := lang d; author := v; uuid := uuid d;
             manifest := manifest d; spine := spine d |}.

Definition setLang (p : option t) (v : string) : outcome t :=
  do d <- deref p;
  Returns {| title := title d; lang := v; author := author d; uuid := uuid d;
             manifest := manifest d; spine := spine d |}.

Definition setTitle (p : option t) (v : string) : outcome t :=
  do d <- deref p;
  Returns {| title := v; lang := lang d; author := author d; uuid := uuid d;
             manifest := manifest d; spine := spine d |}.

Definition setUUID (p : option t) (v : string) : outcome t :=
  do d <- deref p;
  Returns {| title := title d; lang := lang d; author := author d; uuid := v;
             manifest := manifest d; spine := spine d |}.

End Pkgdoc.

(** ** The Navigation Document Model *)

Module Toc.

(** Modelled from the spec: the [toc] struct is declared outside
    [epub.go].  The Navigation Document Model holds the title and
    identifier mirrored from the Book and the ordered navigation
    entries (title, href); it has no language and no author. *)
Record t : Type := Make {
  title : string;
  uuid : string;
  navpoints : list (string * string)
}.

(** Modelled from the spec: [setTitle] and [setUUID] are defined outside
    [epub.go]; they mirror the Book-level value. *)
Definition setTitle (p : option t) (v : string) : outcome t :=
  do d <- deref p;
  Returns {| title := v; uuid := uuid d; navpoints := navpoints d |}.

Definition setUUID (p : option t) (v : string) : outcome t :=
  do d <- deref p;
  Returns {| title := title d; uuid := v; navpoints := navpoints d |}.

End Toc.

(** ** [epub.go] *)

Definition urnUuid : string := "urn:uuid:".

Record epub : Type := Epub {
  author : string;
  lang : string;
  pkgdoc : option Pkgdoc.t;
  title : string;
  toc : option Toc.t;
  uuid : string
}.

(** What [NewEpub] takes from outside [epub.go]: the two results of
    [newToc()] and the string of the identifier drawn by [uuid.NewV4()]. *)
Record env : Type := Env {
  newToc : option Toc.t * option error;
  NewV4 : string
}.

Definition Lang (e : epub) : string := lang e.
Definition Title (e : epub) : string := title e.
Definition Uuid (e : epub) : string := uuid e.

Definition SetAuthor (e : epub) (v : string) : outcome epub :=
  do p <- Pkgdoc.setAuthor (pkgdoc e) v;
  Returns {| author := author e; lang := lang e; pkgdoc := Some p;
             title := title e; toc := toc e; uuid := uuid e |}.

Definition SetLang (e : epub) (v : string) : outcome epub :=
  let e1 := {| author := author e; lang := v; pkgdoc := pkgdoc e;
               title := title e; toc := toc e; uuid := uuid e |} in
  do p <- Pkgdoc.setLang (pkgdoc e1) v;
  Returns {| author := author e1; lang := lang e1; pkgdoc := Some p;
             title := title e1; toc := toc e1; uuid := uuid e1 |}.

Definition SetTitle (e : epub) (v : string) : outcome epub :=
  let e1 := {| author := author e; lang := lang e; pkgdoc := pkgdoc e;
               title := v; toc := toc e; uuid := uuid e |} in
  do p <- Pkgdoc.setTitle (pkgdoc e1) v;
  do n <- Toc.setTitle (toc e1) v;
  Returns {| author := author e1; lang := lang e1; pkgdoc := Some p;
             title := title e1; toc := Some n; uuid := uuid e1 |}.

Definition SetUUID (e : epub) (v : string) : outcome epub :=
  let e1 := {| author := author e; lang := lang e; pkgdoc := pkgdoc e;
               title := title e; toc := toc e; uuid := v |} in
  do p <- Pkgdoc.setUUID (pkgdoc e1) v;
  do n <- Toc.setUUID (toc e1) v;
  Returns {| author := author e1; lang := lang e1; pkgdoc := Some p;
             title := title e1; toc := Some n; uuid := uuid e1 |}.

(** [NewEpub] returns a pointer to the Book and an error: the pointer is
    [Some] of the allocated struct, the error is [None] for Go's nil. *)
Definition NewEpub (w : env) (t : string) : outcome (option epub * option error) :=
  let e := {| author := ""; lang := ""; pkgdoc := Pkgdoc.newPkgdoc;
              title := ""; toc := fst (newToc w); uuid := "" |} in
  match snd (newToc w) with
  | Some err => Returns (Some e, Some err)
  | None =>
      do e <- SetLang e "en";
      do e <- SetTitle e t;
      do e <- SetUUID e (urnUuid +:+ NewV4 w);
      Returns (Some e, None)
  end.

(** A Book whose two owned documents are allocated. *)
Definition allocated (e : epub) : bool :=
  match pkgdoc e, toc e with
  | Some _, Some _ => true
  | _, _ => false
  end.

(** ** Sequences of setter calls *)

Inductive call : Type :=
  | CallSetAuthor (v : string)
  | CallSetLang (v : string)
  | CallSetTitle (v : string)
  | CallSetUUID (v : string).

Definition perform (e : epub) (c : call) : outcome epub :=
  match c with
  | CallSetAuthor v => SetAuthor e v
  | CallSetLang v => SetLang e v
  | CallSetTitle v => SetTitle e v
  | CallSetUUID v => SetUUID e v
  end.

Fixpoint run (cs : list call) (e : epub) : outcome epub :=
  match cs with
  | [] => Returns e
  | c :: cs' => do e1 <- perform e c; run cs' e1
  end.

Definition author_arg (c : call) : option string :=
  match c with CallSetAuthor v => Some v | _ => None end.
Definition lang_arg (c : call) : option string :=
  match c with CallSetLang v => Some v | _ => None end.
Definition title_arg (c : call) : option string :=
  match c with CallSetTitle v => Some v | _ => None end.
Definition uuid_arg (c : call) : option string :=
  match c with CallSetUUID v => Some v | _ => None end.

(** The value a field ends with: the argument of the last call that set
    it, or the value [d] it had when no call did. *)
Definition last_write (arg : call -> option string) (cs : list call) (d : string) : string :=
  default d (last (omap arg cs)).

(** ** The four metadata fields, document by document *)

Inductive field : Type := FTitle | FAuthor | FLang | FUUID.


Definition book_field (f : field) (e : epub) : string :=
  match f with
  | FTitle => title e
  | FAuthor => author e
  | FLang => lang e
  | FUUID => uuid e
  end.

Definition pkg_field (f : field) (p : Pkgdoc.t) : string :=
  match f with
  | FTitle => Pkgdoc.title p
  | FAuthor => Pkgdoc.author p
  | FLang => Pkgdoc.lang p
  | FUUID => Pkgdoc.uuid p
  end.

(** The navigation document holds a title and an identifier only. *)
Definition toc_field (f : field) (n : Toc.t) : option string :=
  match f with
  | FTitle => Some (Toc.title n)
  | FUUID => Some (Toc.uuid n)
  | FAuthor | FLang => None
  end.

(** Field [f] reads [v] in the Book and in both owned documents. *)
Definition propagated (f : field) (v : string) (e : epub) : Prop :=
  book_field f e = v /\
  (exists p, pkgdoc e = Some p /\ pkg_field f p = v) /\
  (exists n, toc e = Some n /\ toc_field f n = Some v).

(** Title and identifier agree across the Book and both documents, the
    language across the Book and the package document. *)
Definition in_sync (e : epub) : Prop :=
  match pkgdoc e, toc e with
  | Some p, Some n =>
      title e = Pkgdoc.title p /\ title e = Toc.title n /\
      uuid e = Pkgdoc.uuid p /\ uuid e = Toc.uuid n /\
      lang e = Pkgdoc.lang p
  | _, _ => False
  end.

(** ** Markup *)

Inductive xml : Type :=
  | Element (name : string) (attrs : list (string * string)) (children : list xml)
  | Text (s : string).

(** The elements called [n] in a document, in document order. *)
Fixpoint elements_named (n : string) (x : xml) : list xml :=
  match x with
  | Text _ => []
  | Element m _ cs =>
      (if String.eqb m n then [x] else []) ++ flat_map (elements_named n) cs
  end.

Module PkgdocXml.

Definition item (m : manifest_entry) : xml :=
  Element "item"
    ([("id", me_id m); ("href", me_href m); ("media-type", me_media_type m)] ++
     match me_properties m with
     | Some v => [("properties", v)]
     | None => []
     end) [].

Definition itemref (i : string) : xml :=
  Element "itemref" [("idref", i)] [].

Definition creator (a : string) : list xml :=
  if String.eqb a "" then []
  else [Element "dc:creator" [("id", "creator")] [Text a]].

(** Modelled from the spec: the serialization of the package document is
    defined outside [epub.go].  It emits identifier, title, language,
    the optional creator, the last-modified timestamp [modified], the
    manifest and the spine in insertion order; element and attribute
    names are those of the package template in the tests. *)
Definition serialize (modified : string) (d : Pkgdoc.t) : xml :=
  Element "package"
    [("xmlns", "http://www.idpf.org/2007/opf");
     ("unique-identifier", "pub-id"); ("version", "3.0")]
    [ Element "metadata" [("xmlns:dc", "http://purl.org/dc/elements/1.1/")]
        ([ Element "dc:identifier" [("id", "pub-id")] [Text (Pkgdoc.uuid d)];
           Element "dc:title" [] [Text (Pkgdoc.title d)];
           Element "dc:language" [] [Text (Pkgdoc.lang d)] ] ++
         creator (Pkgdoc.author d) ++
         [ Element "meta" [("property", "dcterms:modified")] [Text modified] ]);
      Element "manifest" [] (map item (Pkgdoc.manifest d));
      Element "spine" [("toc", "ncx")] (map itemref (Pkgdoc.spine d)) ].

End PkgdocXml.

(** * The content registry, the allocator and the archive

    [AddImage], [AddSection] and [Write] and the state they work on are
    not part of [epub.go]; the tests call them. *)

(** ** Path allocator *)

Inductive kind : Type := KImage | KSection.

Definition kind_prefix (k : kind) : string :=
  match k with
  | KImage => "image"
  | KSection => "section"
  end.

Fixpoint zeros (k : nat) : string :=
  match k with
  | O => ""
  | S k' => String "0"%char (zeros k')
  end.

(** The decimal numeral of [n], zero-padded on the left to four digits. *)
Definition fmt04d (n : nat) : string :=
  let s := NilEmpty.string_of_uint (Nat.to_uint n) in
  zeros (4 - String.length s) +:+ s.

Definition auto_name (k : kind) (n : nat) (ext : string) : string :=
  kind_prefix k +:+ fmt04d n +:+ "." +:+ ext.

Module Allocator.

(** Modelled from the spec: the allocator state is kept outside
    [epub.go].  It is the set of already-used filenames per content kind
    and the per-kind sequence counter of the synthesized names. *)
Record t : Type := Make {
  used_images : gset string;
  used_sections : gset string;
  seq_images : nat;
  seq_sections : nat
}.

Definition empty : t :=
  {| used_images := ∅; used_sections := ∅; seq_images := 0; seq_sections := 0 |}.

Definition used (k : kind) (a : t) : gset string :=
  match k with
  | KImage => used_images a
  | KSection => used_sections a
  end.

Definition seq (k : kind) (a : t) : nat :=
  match k with
  | KImage => seq_images a
  | KSection => seq_sections a
  end.

Definition set_used (k : kind) (u : gset string) (a : t) : t :=
  match k with
  | KImage => {| used_images := u; used_sections := used_sections a;
                 seq_images := seq_images a; seq_sections := seq_sections a |}
  | KSection => {| used_images := used_images a; used_sections := u;
                   seq_images := seq_images a; seq_sections := seq_sections a |}
  end.

Definition set_seq (k : kind) (n : nat) (a : t) : t :=
  match k with
  | KImage => {| used_images := used_images a; used_sections := used_sections a;
                 seq_images := n; seq_sections := seq_sections a |}
  | KSection => {| used_images := used_images a; used_sections := used_sections a;
                   seq_images := seq_images a; seq_sections := n |}
  end.

(** Modelled from the spec: [allocate(kind, requestedName)] is defined
    outside [epub.go].  A non-empty requested name is used verbatim
    unless already used for that kind; an empty one is replaced by the
    synthesized name of the next sequence number, which advances only on
    such an allocation; a synthesized name that is already used is a
    duplicate as well.  [ext] is the default extension. *)
Definition allocate (k : kind) (requestedName ext : string) (a : t)
    : error + (t * string) :=
  if bool_decide (requestedName = "") then
    let n := S (seq k a) in
    let name := auto_name k n ext in
    if bool_decide (name ∈ used k a) then inl DuplicateNameError
    else inr (set_seq k n (set_used k ({[name]} ∪ used k a) a), name)
  else
    if bool_decide (requestedName ∈ used k a) then inl DuplicateNameError
    else inr (set_used k ({[requestedName]} ∪ used k a) a, requestedName).

(** Modelled from the spec: the roll-back of an allocation (the registry
    rolls back any already-performed sub-step).  The name is released and,
    for a synthesized name, the sequence counter is stepped back. *)
Definition release (k : kind) (requestedName name : string) (a : t) : t :=
  let a1 := set_used k (used k a ∖ {[name]}) a in
  if bool_decide (requestedName = "") then set_seq k (pred (seq k a1)) a1 else a1.

End Allocator.

(** ** Manifest, spine and navigation entries *)

Module PkgdocOps.

Definition has_id (i : string) (d : Pkgdoc.t) : bool :=
  existsb (fun m => String.eqb (me_id m) i) (Pkgdoc.manifest d).

Definition set_manifest (ms : list manifest_entry) (d : Pkgdoc.t) : Pkgdoc.t :=
  {| Pkgdoc.title := Pkgdoc.title d; Pkgdoc.lang := Pkgdoc.lang d;
     Pkgdoc.author := Pkgdoc.author d; Pkgdoc.uuid := Pkgdoc.uuid d;
     Pkgdoc.manifest := ms; Pkgdoc.spine := Pkgdoc.spine d |}.

Definition set_spine (sp : list string) (d : Pkgdoc.t) : Pkgdoc.t :=
  {| Pkgdoc.title := Pkgdoc.title d; Pkgdoc.lang := Pkgdoc.lang d;
     Pkgdoc.author := Pkgdoc.author d; Pkgdoc.uuid := Pkgdoc.uuid d;
     Pkgdoc.manifest := Pkgdoc.manifest d; Pkgdoc.spine := sp |}.

(** Modelled from the spec: [addManifestEntry(id, href, mediaType,
    properties?)] is defined outside [epub.go].  It appends; the id must
    be unique. *)
Definition addManifestEntry (d : Pkgdoc.t) (m : manifest_entry) : error + Pkgdoc.t :=
  if has_id (me_id m) d then inl DuplicateIDError
  else inr (set_manifest (Pkgdoc.manifest d ++ [m]) d).

(** Modelled from the spec: [addSpineEntry(id)] is defined outside
    [epub.go].  It appends; the id must already be in the manifest. *)
Definition addSpineEntry (d : Pkgdoc.t) (i : string) : error + Pkgdoc.t :=
  if has_id i d then inr (set_spine (Pkgdoc.spine d ++ [i]) d)
  else inl UnknownManifestIDError.

(** Modelled from the spec: the roll-back of [addManifestEntry] drops the
    entry appended last. *)
Definition dropManifestEntry (d : Pkgdoc.t) : Pkgdoc.t :=
  set_manifest (removelast (Pkgdoc.manifest d)) d.

End PkgdocOps.

Module TocOps.

(** Modelled from the spec: [addNavPoint(title, href)] is defined outside
    [epub.go].  It appends in call order. *)
Definition addNavPoint (n : Toc.t) (t href : string) : Toc.t :=
  {| Toc.title := Toc.title n; Toc.uuid := Toc.uuid n;
     Toc.navpoints := Toc.navpoints n ++ [(t, href)] |}.

End TocOps.

(** ** Content registry *)

(** What the files of an archive hold: raw bytes, a markup tree, the two
    serialized forms of the navigation document, or the fixed XHTML
    template of a section around its title and body fragment. *)
Inductive payload : Type :=
  | Bytes (s : string)
  | Markup (x : xml)
  | NavMarkup (n : Toc.t)
  | NcxMarkup (n : Toc.t)
  | SectionMarkup (t body : string).

Record content_item : Type := ContentItem {
  ci_kind : kind;
  ci_path : string;
  ci_payload : payload
}.

(** Modelled from the spec: the state behind [AddImage], [AddSection] and
    [Write] is kept outside [epub.go].  A Book is the [epub] aggregate
    with the allocator state and the content items of the registry. *)
Record Book : Type := MkBook {
  doc : epub;
  names : Allocator.t;
  items : list content_item
}.

Definition newBook (e : epub) : Book :=
  {| doc := e; names := Allocator.empty; items := [] |}.

(** The names of files and folders in the archive; the tests refer to
    these constants, which are declared outside [epub.go]. *)
Record layout : Type := Layout {
  mimetypeFilename : string;
  metaInfFolderName : string;
  containerFilename : string;
  contentFolderName : string;
  pkgFilename : string;
  imageFolderName : string;
  xhtmlFolderName : string
}.

(** The external collaborators: the content source ([None] when the
    source can be neither read nor fetched), the image format sniffers,
    the destination storage and the clock. *)
Record world : Type := World {
  fetch : string -> option string;
  image_ext : string -> string;
  image_media_type : string -> string;
  writable : string -> bool;
  now : string
}.

Definition join (a b : string) : string := a +:+ "/" +:+ b.

Definition set_pkgdoc (p : Pkgdoc.t) (e : epub) : epub :=
  {| author := author e; lang := lang e; pkgdoc := Some p;
     title := title e; toc := toc e; uuid := uuid e |}.

Definition set_toc (n : Toc.t) (e : epub) : epub :=
  {| author := author e; lang := lang e; pkgdoc := pkgdoc e;
     title := title e; toc := Some n; uuid := uuid e |}.

Section Registry.

Variable L : layout.
Variable W : world.

Definition section_entry (path : string) : manifest_entry :=
  ManifestEntry path (join (xhtmlFolderName L) path) "application/xhtml+xml" None.


(** Modelled from the spec: [AddSection(title, body, filename)] is defined
    outside [epub.go].  It allocates a section path, then adds one
    manifest entry, one spine entry and one navigation entry and stores
    the section; a failing step rolls back the steps already performed
    and surfaces the error.  The manifest id is the allocated path. *)
Definition AddSection (b : Book) (t body requestedFilename : string)
    : outcome (Book * (error + string)) :=
  match Allocator.allocate KSection requestedFilename "xhtml" (names b) with
  | inl err => Returns (b, inl err)
  | inr (a1, path) =>
      do p <- deref (pkgdoc (doc b));
      match PkgdocOps.addManifestEntry p (section_entry path) with
      | inl err =>
          Returns ({| doc := doc b;
                      names := Allocator.release KSection requestedFilename path a1;
                      items := items b |}, inl err)
      | inr p1 =>
          match PkgdocOps.addSpineEntry p1 path with
          | inl err =>
              Returns ({| doc := set_pkgdoc (PkgdocOps.dropManifestEntry p1) (doc b);
                          names := Allocator.release KSection requestedFilename path a1;
                          items := items b |}, inl err)
          | inr p2 =>
              do n <- deref (toc (doc b));
              Returns ({| doc := set_toc (TocOps.addNavPoint n t path)
                                   (set_pkgdoc p2 (doc b));
                          names := a1;
                          items := items b ++
                                   [ContentItem KSection path (SectionMarkup t body)] |},
                       inr path)
          end
      end
  end.


(** ** Archive serializer *)

Inductive compression : Type := Store | Deflate.

Record entry : Type := Entry {
  entry_name : string;
  entry_method : compression;
  entry_content : payload
}.

Definition container : xml :=
  Element "container"
    [("version", "1.0"); ("xmlns", "urn:oasis:names:tc:opendocument:xmlns:container")]
    [ Element "rootfiles" []
        [ Element "rootfile"
            [("full-path", join (contentFolderName L) (pkgFilename L));
             ("media-type", "application/oebps-package+xml")] [] ] ].

Definition kind_folder (k : kind) : string :=
  match k with
  | KImage => imageFolderName L
  | KSection => xhtmlFolderName L
  end.

Definition item_entry (c : content_item) : entry :=
  Entry (join (contentFolderName L) (join (kind_folder (ci_kind c)) (ci_path c)))
        Deflate (ci_payload c).

(** Modelled from the spec: the entries of the archive, in physical
    order.  The fixed mimetype entry comes first and is stored without
    compression; the container descriptor, the package document, both
    forms of the navigation document and every content item follow. *)
Definition archive (b : Book) : outcome (list entry) :=
  do p <- deref (pkgdoc (doc b));
  do n <- deref (toc (doc b));
  Returns
    (Entry (mimetypeFilename L) Store (Bytes "application/epub+zip") ::
     Entry (join (metaInfFolderName L) (containerFilename L)) Deflate (Markup container) ::
     Entry (join (contentFolderName L) (pkgFilename L)) Deflate
           (Markup (PkgdocXml.serialize (now W) p)) ::
     Entry (join (contentFolderName L) "nav.xhtml") Deflate (NavMarkup n) ::
     Entry (join (contentFolderName L) "toc.ncx") Deflate (NcxMarkup n) ::
     map item_entry (items b)).

(** Modelled from the spec: [Write(destinationPath)] is defined outside
    [epub.go].  It reads the Book and leaves the archive at the
    destination; an I/O failure is surfaced as [WriteFailedError] and no
    file is left at the destination. *)
Definition Write (b : Book) (dest : string) (fs : gmap string (list entry))
    : outcome (gmap string (list entry) * option error) :=
  do a <- archive b;
  if writable W dest then Returns (<[dest := a]> fs, None)
  else Returns (delete dest fs, Some WriteFailedError).

(** ** The public operations, uniformly *)








End Registry.

(** The package document [p] with each metadata field replaced by the
    last value the calls [cs] wrote to it; manifest and spine are kept. *)
Definition overwritten (cs : list call) (p : Pkgdoc.t) : Pkgdoc.t :=
  {| Pkgdoc.title := last_write title_arg cs (Pkgdoc.title p);
     Pkgdoc.lang := last_write lang_arg cs (Pkgdoc.lang p);
     Pkgdoc.author := last_write author_arg cs (Pkgdoc.author p);
     Pkgdoc.uuid := last_write uuid_arg cs (Pkgdoc.uuid p);
     Pkgdoc.manifest := Pkgdoc.manifest p;
     Pkgdoc.spine := Pkgdoc.spine p |}.

(** ** Sample inputs *)

Definition sample_toc : Toc.t :=
  {| Toc.title := ""; Toc.uuid := ""; Toc.navpoints := [] |}.

Definition sample_env : env :=
  {| newToc := (Some sample_toc, None);
     NewV4 := "21ed94b4-f2ab-44c8-b99d-4f7792587ad6" |}.

Definition failing_env : env :=
  {| newToc := (None, Some (OtherError "toc template")); NewV4 := "" |}.

(** The Book [NewEpub] builds in [sample_env] for the title of the tests. *)
Definition sample_book : epub :=
  {| author := ""; lang := "en";
     pkgdoc := Some {| Pkgdoc.title := "My title"; Pkgdoc.lang := "en";
                       Pkgdoc.author := "";
                       Pkgdoc.uuid := "urn:uuid:21ed94b4-f2ab-44c8-b99d-4f7792587ad6";
                       Pkgdoc.manifest :=
                         [ ManifestEntry "nav" "nav.xhtml" "application/xhtml+xml" (Some "nav");
                           ManifestEntry "ncx" "toc.ncx" "application/x-dtbncx+xml" None ];
                       Pkgdoc.spine := [] |};
     title := "My title";
     toc := Some {| Toc.title := "My title";
                    Toc.uuid := "urn:uuid:21ed94b4-f2ab-44c8-b99d-4f7792587ad6";
                    Toc.navpoints := [] |};
     uuid := "urn:uuid:21ed94b4-f2ab-44c8-b99d-4f7792587ad6" |}.

Definition sample_layout : layout :=
  {| mimetypeFilename := "mimetype"; metaInfFolderName := "META-INF";
     containerFilename := "container.xml"; contentFolderName := "EPUB";
     pkgFilename := "package.opf"; imageFolderName := "img";
     xhtmlFolderName := "xhtml" |}.

Definition sample_world : world :=
  {| fetch := fun src =>
       if String.eqb src "testdata/gophercolor16x16.png" then Some "PNG" else None;
     image_ext := fun _ => "png";
     image_media_type := fun _ => "image/png";
     writable := fun _ => true;
     now := "2016-04-28T19:09:26Z" |}.







(** * Helpers of the tests *)

Module TestHelpers.

Definition testEpubcheckJarfile : string := "epubcheck.jar".
Definition testEpubcheckPrefix : string := "epubcheck".

Definition newline : string := String "010"%char "".

(** [strings.Split(s, sep)] for the one-character separator of the tests:
    the pieces of [s] between the newlines, one more than there are
    newlines. *)
Fixpoint Split (s : string) : list string :=
  match s with
  | EmptyString => [EmptyString]
  | String c rest =>
      if Ascii.eqb c "010"%char then EmptyString :: Split rest
      else match Split rest with
           | l :: ls => String c l :: ls
           | [] => [String c EmptyString]
           end
  end.

(** [strings.Join(elems, sep)]. *)
Definition Join (elems : list string) (sep : string) : string :=
  String.concat sep elems.

Section TrimAllSpace.

(** [strings.TrimSpace] of the Go library. *)
Variable TrimSpace : string -> string.

(** The loop of [trimAllSpace] over the lines, threading [trimmedLines];
    the source appends nothing: [append(trimmedLines)]. *)
Fixpoint trimLoop (lines trimmedLines : list string) : list string :=
  match lines with
  | [] => trimmedLines
  | line :: rest =>
      let line := TrimSpace line in
      if negb (String.eqb line "") then trimLoop rest (trimmedLines ++ [])
      else trimLoop rest trimmedLines
  end.

Definition trimAllSpace (s : string) : string :=
  Join (trimLoop (Split s) []) newline.

End TrimAllSpace.

(** An entry of a directory listing ([os.FileInfo]): its name and whether
    its mode is a directory. *)
Record FileInfo : Type := MkFileInfo {
  Name : string;
  IsDir : bool
}.

(** What [validateEpub] does besides returning: reports to the test,
    prints, runs a command. *)
Inductive event : Type :=
  | TError (msg : string)
  | Println (msg : string)
  | Exec (args : list string).

Section ValidateEpub.

(** The operating system as [validateEpub] sees it: the two results of
    [os.Getwd] and [ioutil.ReadDir], whether [os.Stat] finds a path,
    [filepath.Join] of two elements and the two results of running a
    command. *)
Variable Getwd : string * option error.
Variable ReadDir : string -> list FileInfo * option error.
Variable Stat : string -> bool.
Variable FilepathJoin : string -> string -> string.
Variable CombinedOutput : list string -> string * option error.

(** The loop over the directory entries, threading [pathToEpubcheck]; a
    [break] returns at once. *)
Fixpoint search (items : list FileInfo) (pathToEpubcheck : string) : string :=
  match items with
  | [] => pathToEpubcheck
  | i :: rest =>
      if String.eqb (Name i) testEpubcheckJarfile then Name i
      else if String.prefix testEpubcheckPrefix (Name i) then
        if IsDir i then
          let p := FilepathJoin (Name i) testEpubcheckJarfile in
          if Stat p then p else search rest ""
        else search rest pathToEpubcheck
      else search rest pathToEpubcheck
  end.

Definition report (err : option error) (msg : string) : list event :=
  match err with
  | Some _ => [TError msg]
  | None => []
  end.

Definition validateEpub (epubFilename : string)
    : list event * (string * option error) :=
  let cwd := fst Getwd in
  let log1 := report (snd Getwd) "Error getting working directory" in
  let items := fst (ReadDir cwd) in
  let log2 := report (snd (ReadDir cwd))
                "Error getting contents of working directory" in
  let pathToEpubcheck := search items "" in
  if String.eqb pathToEpubcheck "" then
    (log1 ++ log2 ++
       [Println "Epubcheck tool not installed, skipping EPUB validation."],
     ("", None))
  else
    let args := ["java"; "-jar"; pathToEpubcheck; epubFilename] in
    (log1 ++ log2 ++ [Exec args], CombinedOutput args).

(** The path an entry offers to the search: its own name when it is called
    like the jar file, the jar file inside it when it is a directory
    whose name starts with the prefix and [os.Stat] finds the jar there. *)
Definition usable (i : FileInfo) : option string :=
  if String.eqb (Name i) testEpubcheckJarfile then Some (Name i)
  else if String.prefix testEpubcheckPrefix (Name i) && IsDir i
          && Stat (FilepathJoin (Name i) testEpubcheckJarfile)
       then Some (FilepathJoin (Name i) testEpubcheckJarfile)
       else None.

Definition runs_command (es : list event) : bool :=
  existsb (fun e => match e with Exec _ => true | _ => false end) es.

End ValidateEpub.

(** A working directory holding an unrelated file, an archive whose name
    starts with the prefix, and the unpacked tool. *)
Definition sample_listing : list FileInfo :=
  [ MkFileInfo "epub.go" false;
    MkFileInfo "epubcheck-4.0.1.zip" false;
    MkFileInfo "epubcheck-4.0.1" true ].

Definition sample_Stat (path : string) : bool :=
  String.eqb path "epubcheck-4.0.1/epubcheck.jar".

Definition sample_Join (a b : string) : string := a +:+ "/" +:+ b.

Definition sample_CombinedOutput (args : list string) : string * option error :=
  ("No errors or warnings detected.", None).

End TestHelpers.

(** * Properties of [epub.go] *)

Section Setters.

Implicit Types (e : epub) (v : string) (cs : list call).

Lemma allocated_inv e :
  allocated e = true -> exists p n, pkgdoc e = Some p /\ toc e = Some n.
Proof.
  unfold allocated. destruct (pkgdoc e) as [p|], (toc e) as [n|]; try discriminate.
  intros _. by exists p, n.
Qed.

Lemma last_write_cons (arg : call -> option string) c cs d :
  last_write arg (c :: cs) d = last_write arg cs (default d (arg c)).
Proof.
  unfold last_write. change (omap arg (c :: cs)) with
    (match arg c with Some y => y :: omap arg cs | None => omap arg cs end).
  destruct (arg c) as [v|]; simpl; [|reflexivity].
  rewrite last_cons. destruct (last (omap arg cs)); reflexivity.
Qed.

Lemma perform_allocated e c :
  allocated e = true -> exists e1, perform e c = Returns e1 /\ allocated e1 = true.
Proof.
  intros Ha. destruct (allocated_inv e Ha) as (p & n & Hp & Hn).
  destruct e as [a l pd t td u]; simpl in *; subst.
  destruct c; cbv; eexists; split; reflexivity.
Qed.

Lemma perform_in_sync e c e1 :
  in_sync e -> perform e c = Returns e1 -> in_sync e1.
Proof.
  destruct e as [a l [p|] t [n|] u]; unfold in_sync; simpl; try tauto.
  intros (Ht1 & Ht2 & Hu1 & Hu2 & Hl).
  destruct c; simpl; intros [= <-]; simpl; repeat split; congruence.
Qed.

Lemma run_in_sync cs : forall e,
  allocated e = true -> in_sync e ->
  exists e', run cs e = Returns e' /\ allocated e' = true /\ in_sync e'.
Proof.
  induction cs as [|c cs IH]; intros e Ha Hs; simpl.
  - by exists e.
  - destruct (perform_allocated e c Ha) as (e1 & He1 & Ha1).
    rewrite He1. simpl. apply IH; [done|]. by eapply perform_in_sync.
Qed.

Lemma elements_named_Element n m a (cs : list xml) :
  elements_named n (Element m a cs) =
  (if String.eqb m n then [Element m a cs] else []) ++
  flat_map (elements_named n) cs.
Proof. reflexivity. Qed.

Lemma elements_named_leaves n m (A : Type)
    (attrs : A -> list (string * string)) (l : list A) :
  m <> n ->
  flat_map (elements_named n) (map (fun a => Element m (attrs a) []) l) = [].
Proof.
  intros Hn. induction l as [|a l IH]; [reflexivity|].
  cbn [map flat_map]. rewrite IH, elements_named_Element.
  destruct (String.eqb_spec m n); [congruence|reflexivity].
Qed.

Lemma serialize_title modified (d : Pkgdoc.t) :
  elements_named "dc:title" (PkgdocXml.serialize modified d) =
  [Element "dc:title" [] [Text (Pkgdoc.title d)]].
Proof.
  unfold PkgdocXml.serialize. rewrite elements_named_Element.
  cbn [flat_map]. rewrite !elements_named_Element.
  unfold PkgdocXml.item, PkgdocXml.itemref.
  rewrite (elements_named_leaves "dc:title" "item" _
             (fun m => [("id", me_id m); ("href", me_href m);
                        ("media-type", me_media_type m)] ++
                       match me_properties m with
                       | Some v => [("properties", v)]
                       | None => []
                       end)) by discriminate.
  rewrite (elements_named_leaves "dc:title" "itemref" _
             (fun i => [("idref", i)])) by discriminate.
  unfold PkgdocXml.creator.
  destruct (String.eqb (Pkgdoc.author d) ""); reflexivity.
Qed.

Lemma NewEpub_success w t n :
  newToc w = (Some n, None) ->
  NewEpub w t = Returns
    (Some {| author := ""; lang := "en";
             pkgdoc := Some {| Pkgdoc.title := t; Pkgdoc.lang := "en";
                               Pkgdoc.author := "";
                               Pkgdoc.uuid := urnUuid +:+ NewV4 w;
                               Pkgdoc.manifest :=
                                 [ ManifestEntry "nav" "nav.xhtml" "application/xhtml+xml" (Some "nav");
                                   ManifestEntry "ncx" "toc.ncx" "application/x-dtbncx+xml" None ];
                               Pkgdoc.spine := [] |};
             title := t;
             toc := Some {| Toc.title := t; Toc.uuid := urnUuid +:+ NewV4 w;
                            Toc.navpoints := Toc.navpoints n |};
             uuid := urnUuid +:+ NewV4 w |}, None).
Proof. intros Hw. unfold NewEpub. rewrite Hw. reflexivity. Qed.

Example NewEpub_sample :
  NewEpub sample_env "My title" = Returns (Some sample_book, None).
Proof. reflexivity. Qed.

End Setters.

(** ** Claims about the setters and the constructor *)

(** C8: on a Book whose package document is allocated, [SetAuthor a]
    returns, writes [a] into the package document only, and leaves the
    Book's own author field, its other fields and the navigation document
    as they were. *)
Theorem SetAuthor_writes_pkgdoc_only (e : epub) (a : string) (p : Pkgdoc.t) :
  pkgdoc e = Some p ->
  exists e' p',
    SetAuthor e a = Returns e' /\
    author e' = author e /\ toc e' = toc e /\
    lang e' = lang e /\ title e' = title e /\ uuid e' = uuid e /\
    pkgdoc e' = Some p' /\ Pkgdoc.author p' = a /\
    Pkgdoc.title p' = Pkgdoc.title p /\ Pkgdoc.lang p' = Pkgdoc.lang p /\
    Pkgdoc.uuid p' = Pkgdoc.uuid p /\
    Pkgdoc.manifest p' = Pkgdoc.manifest p /\ Pkgdoc.spine p' = Pkgdoc.spine p.
Proof.
  intros Hp. destruct e as [ea el ep et en eu]; simpl in Hp; subst ep.
  eexists _, _. split; [reflexivity|]. simpl. repeat split; reflexivity.
Qed.

Lemma SetAuthor_writes_pkgdoc_only_witness :
  exists e' p',
    SetAuthor sample_book "Hingle McCringleberry" = Returns e' /\
    author e' = "" /\ toc e' = toc sample_book /\
    pkgdoc e' = Some p' /\ Pkgdoc.author p' = "Hingle McCringleberry".
Proof.
  destruct (SetAuthor_writes_pkgdoc_only sample_book "Hingle McCringleberry" _ eq_refl)
    as (e' & p' & H1 & H2 & H3 & _ & _ & _ & H7 & H8 & _).
  exists e', p'. repeat split; assumption.
Defined.

(** C10: on a Book whose documents are allocated, each of [SetTitle],
    [SetLang] and [SetUUID] returns and leaves the three other Book
    fields unchanged, as read through [Title], [Lang] and [Uuid] (and the
    author field). *)
Theorem setters_frame (e : epub) (v : string) :
  allocated e = true ->
  (exists e', SetTitle e v = Returns e' /\
     Lang e' = Lang e /\ author e' = author e /\ Uuid e' = Uuid e) /\
  (exists e', SetLang e v = Returns e' /\
     Title e' = Title e /\ author e' = author e /\ Uuid e' = Uuid e) /\
  (exists e', SetUUID e v = Returns e' /\
     Title e' = Title e /\ author e' = author e /\ Lang e' = Lang e).
Proof.
  intros Ha. destruct (allocated_inv e Ha) as (p & n & Hp & Hn).
  destruct e as [ea el ep et en eu]; simpl in Hp, Hn; subst ep en.
  repeat split; eexists; (split; [reflexivity|]); repeat split; reflexivity.
Qed.

Lemma setters_frame_witness :
  (exists e', SetTitle sample_book "Other" = Returns e' /\
     Lang e' = "en" /\ author e' = "" /\ Uuid e' = Uuid sample_book) /\
  (exists e', SetLang sample_book "Other" = Returns e' /\
     Title e' = "My title" /\ author e' = "" /\ Uuid e' = Uuid sample_book) /\
  (exists e', SetUUID sample_book "Other" = Returns e' /\
     Title e' = "My title" /\ author e' = "" /\ Lang e' = "en").
Proof. exact (setters_frame sample_book "Other" eq_refl). Defined.

(** C9: when [newToc] reports an error, [NewEpub] returns the partially
    initialised Book (package document allocated, navigation document as
    [newToc] left it, no field set) together with that error; when it
    reports none and hands out a navigation document, [NewEpub] returns a
    Book and no error. *)
Theorem NewEpub_results (w : env) (t : string) :
  match newToc w with
  | (n, Some err) =>
      NewEpub w t =
      Returns (Some {| author := ""; lang := ""; pkgdoc := Pkgdoc.newPkgdoc;
                       title := ""; toc := n; uuid := "" |}, Some err)
  | (Some n, None) => exists e, NewEpub w t = Returns (Some e, None)
  | (None, None) => NewEpub w t = Panics
  end.
Proof.
  unfold NewEpub. destruct (newToc w) as [[n|] [err|]]; simpl; try reflexivity.
  eexists. reflexivity.
Qed.

Example NewEpub_failing :
  NewEpub failing_env "My title" =
  Returns (Some {| author := ""; lang := ""; pkgdoc := Pkgdoc.newPkgdoc;
                   title := ""; toc := None; uuid := "" |},
           Some (OtherError "toc template")).
Proof. reflexivity. Qed.

(** C4: a Book freshly built by [NewEpub] has language "en", in the Book
    ([Lang]) and in its package document. *)
Theorem NewEpub_lang (w : env) (t : string) (n : Toc.t) :
  newToc w = (Some n, None) ->
  exists e p,
    NewEpub w t = Returns (Some e, None) /\
    Lang e = "en" /\ pkgdoc e = Some p /\ Pkgdoc.lang p = "en".
Proof.
  intros Hw. rewrite (NewEpub_success w t n Hw).
  eexists _, _. repeat split; reflexivity.
Qed.

Lemma NewEpub_lang_witness :
  exists e p,
    NewEpub sample_env "My title" = Returns (Some e, None) /\
    Lang e = "en" /\ pkgdoc e = Some p /\ Pkgdoc.lang p = "en".
Proof. exact (NewEpub_lang sample_env "My title" sample_toc eq_refl). Defined.

(** C3: [NewEpub T] succeeds with a Book whose [Title] is [T] and whose
    serialized package document holds exactly one title element, of
    value [T]. *)
Theorem NewEpub_title (w : env) (t : string) (n : Toc.t) :
  newToc w = (Some n, None) ->
  exists e p,
    NewEpub w t = Returns (Some e, None) /\
    Title e = t /\ pkgdoc e = Some p /\
    forall modified,
      elements_named "dc:title" (PkgdocXml.serialize modified p) =
      [Element "dc:title" [] [Text t]].
Proof.
  intros Hw. rewrite (NewEpub_success w t n Hw).
  eexists _, _. split; [reflexivity|]. split; [reflexivity|].
  split; [reflexivity|]. intros modified. apply serialize_title.
Qed.

Lemma NewEpub_title_witness :
  exists e p,
    NewEpub sample_env "My title" = Returns (Some e, None) /\
    Title e = "My title" /\ pkgdoc e = Some p /\
    forall modified,
      elements_named "dc:title" (PkgdocXml.serialize modified p) =
      [Element "dc:title" [] [Text "My title"]].
Proof. exact (NewEpub_title sample_env "My title" sample_toc eq_refl). Defined.

Lemma last_write_one (arg : call -> option string) (c : call) (d : string) :
  last_write arg [c] d = default d (arg c).
Proof. rewrite last_write_cons. reflexivity. Qed.

Lemma overwritten_cons (c : call) (cs : list call) (p : Pkgdoc.t) :
  overwritten (c :: cs) p = overwritten cs (overwritten [c] p).
Proof.
  unfold overwritten. cbn [Pkgdoc.title Pkgdoc.lang Pkgdoc.author Pkgdoc.uuid
                           Pkgdoc.manifest Pkgdoc.spine].
  rewrite !last_write_one, !last_write_cons. reflexivity.
Qed.

Lemma perform_fields (e : epub) (c : call) (p : Pkgdoc.t) (n : Toc.t) :
  pkgdoc e = Some p -> toc e = Some n ->
  exists e1 n1,
    perform e c = Returns e1 /\ toc e1 = Some n1 /\
    title e1 = default (title e) (title_arg c) /\
    lang e1 = default (lang e) (lang_arg c) /\
    uuid e1 = default (uuid e) (uuid_arg c) /\
    pkgdoc e1 = Some (overwritten [c] p).
Proof.
  intros Hp Hn. destruct e as [ea el ep et en eu]; simpl in Hp, Hn; subst ep en.
  unfold overwritten. rewrite !last_write_one. destruct p.
  destruct c as [v|v|v|v]; eexists _, _; repeat split; reflexivity.
Qed.

Lemma run_last_write (cs : list call) : forall (e : epub) (p : Pkgdoc.t) (n : Toc.t),
  pkgdoc e = Some p -> toc e = Some n ->
  exists e',
    run cs e = Returns e' /\
    title e' = last_write title_arg cs (title e) /\
    lang e' = last_write lang_arg cs (lang e) /\
    uuid e' = last_write uuid_arg cs (uuid e) /\
    pkgdoc e' = Some (overwritten cs p).
Proof.
  induction cs as [|c cs IH]; intros e p n Hp Hn.
  - exists e. destruct p. repeat split; assumption.
  - destruct (perform_fields e c p n Hp Hn)
      as (e1 & n1 & He1 & Hn1 & Ht & Hl & Hu & Hp1).
    destruct (IH e1 _ n1 Hp1 Hn1) as (e' & Hr & Ht' & Hl' & Hu' & Hp').
    exists e'. cbn [run]. rewrite He1. cbn [obind].
    rewrite !last_write_cons, overwritten_cons, <- Ht, <- Hl, <- Hu.
    repeat split; assumption.
Qed.

(** C2: on a Book whose documents are allocated, any sequence of setter
    calls returns, and what is observable afterwards shows, for each
    field, the last value written to it (or the previous value when the
    field was never written): [Title], [Lang] and [Uuid] in the Book, and
    title, language, author and identifier in the serialized package
    document. *)
Theorem setters_last_write_wins (cs : list call) (e : epub) (p : Pkgdoc.t) :
  allocated e = true -> pkgdoc e = Some p ->
  exists e' p',
    run cs e = Returns e' /\
    Title e' = last_write title_arg cs (Title e) /\
    Lang e' = last_write lang_arg cs (Lang e) /\
    Uuid e' = last_write uuid_arg cs (Uuid e) /\
    pkgdoc e' = Some p' /\
    Pkgdoc.title p' = last_write title_arg cs (Pkgdoc.title p) /\
    Pkgdoc.lang p' = last_write lang_arg cs (Pkgdoc.lang p) /\
    Pkgdoc.author p' = last_write author_arg cs (Pkgdoc.author p) /\
    Pkgdoc.uuid p' = last_write uuid_arg cs (Pkgdoc.uuid p) /\
    forall modified,
      PkgdocXml.serialize modified p' =
      PkgdocXml.serialize modified (overwritten cs p).
Proof.
  intros Ha Hp. destruct (allocated_inv e Ha) as (p0 & n & Hp0 & Hn).
  destruct (run_last_write cs e p n Hp Hn) as (e' & Hr & Ht & Hl & Hu & Hp').
  exists e', (overwritten cs p). unfold Title, Lang, Uuid.
  repeat split; assumption || reflexivity.
Qed.

Lemma setters_last_write_wins_witness :
  exists e' p',
    run [CallSetTitle "A"; CallSetLang "fr"; CallSetTitle "B"; CallSetAuthor "X";
         CallSetAuthor "Y"] sample_book = Returns e' /\
    Title e' = "B" /\ Lang e' = "fr" /\ Uuid e' = Uuid sample_book /\
    pkgdoc e' = Some p' /\
    Pkgdoc.title p' = "B" /\ Pkgdoc.lang p' = "fr" /\ Pkgdoc.author p' = "Y".
Proof.
  destruct (setters_last_write_wins
              [CallSetTitle "A"; CallSetLang "fr"; CallSetTitle "B";
               CallSetAuthor "X"; CallSetAuthor "Y"] sample_book _ eq_refl eq_refl)
    as (e' & p' & H1 & H2 & H3 & H4 & H5 & H6 & H7 & H8 & _).
  exists e', p'. repeat split; assumption.
Defined.

(** C1, as stated, fails: on the Book of the tests, [SetLang] and
    [SetAuthor] return without touching the navigation document, which
    holds neither a language nor an author, so the value is not in all
    three places. *)
Lemma setters_do_not_reach_all_documents :
  (exists e', SetLang sample_book "fr" = Returns e' /\
     toc e' = toc sample_book /\ ~ propagated FLang "fr" e') /\
  (exists e', SetAuthor sample_book "Hingle McCringleberry" = Returns e' /\
     toc e' = toc sample_book /\
     ~ propagated FAuthor "Hingle McCringleberry" e').
Proof.
  split; eexists; (split; [reflexivity|]); (split; [reflexivity|]);
    intros (_ & _ & (n & Hn & Hf)); discriminate Hf.
Qed.

(** C1, amended: on a Book whose documents are allocated, [SetTitle] and
    [SetUUID] write the value to the Book, the package document and the
    navigation document; [SetLang] writes it to the Book and the package
    document and [SetAuthor] to the package document, both leaving the
    navigation document as it was; and a Book whose title and identifier
    agree in all three places and whose language agrees in the Book and
    the package document still has them agree after any sequence of
    setter calls. *)
Theorem setters_propagate (e : epub) (v : string) :
  allocated e = true ->
  (exists e', SetTitle e v = Returns e' /\ propagated FTitle v e') /\
  (exists e', SetUUID e v = Returns e' /\ propagated FUUID v e') /\
  (exists e' p, SetLang e v = Returns e' /\ lang e' = v /\
     pkgdoc e' = Some p /\ Pkgdoc.lang p = v /\ toc e' = toc e) /\
  (exists e' p, SetAuthor e v = Returns e' /\
     pkgdoc e' = Some p /\ Pkgdoc.author p = v /\ toc e' = toc e) /\
  (forall cs, in_sync e -> exists e', run cs e = Returns e' /\ in_sync e').
Proof.
  intros Ha. destruct (allocated_inv e Ha) as (p & n & Hp & Hn).
  split; [|split; [|split; [|split]]].
  - destruct e as [ea el ep et en eu]; simpl in Hp, Hn; subst ep en.
    eexists. split; [reflexivity|]. unfold propagated; simpl. eauto 10.
  - destruct e as [ea el ep et en eu]; simpl in Hp, Hn; subst ep en.
    eexists. split; [reflexivity|]. unfold propagated; simpl. eauto 10.
  - destruct e as [ea el ep et en eu]; simpl in Hp, Hn; subst ep en.
    eexists _, _. repeat split; reflexivity.
  - destruct e as [ea el ep et en eu]; simpl in Hp, Hn; subst ep en.
    eexists _, _. repeat split; reflexivity.
  - intros cs Hs. destruct (run_in_sync cs e Ha Hs) as (e' & Hr & _ & Hs').
    by exists e'.
Qed.

Lemma setters_propagate_witness :
  (exists e', SetTitle sample_book "Other" = Returns e' /\
     propagated FTitle "Other" e') /\
  (exists e', run [CallSetTitle "A"; CallSetLang "fr"; CallSetAuthor "X";
                   CallSetUUID "urn:uuid:51b7c9ea-b2a2-49c6-9d8c-522790786d15"]
                  sample_book = Returns e' /\ in_sync e').
Proof.
  destruct (setters_propagate sample_book "Other" eq_refl) as (Ht & _ & _ & _ & Hrun).
  split; [exact Ht|]. apply Hrun. cbv. repeat split; reflexivity.
Defined.

(** * Properties of the registry and the serializer *)

Section RegistryFacts.

Variable L : layout.
Variable W : world.












End RegistryFacts.



Example AddSection_rolls_back :
  AddSection sample_layout (newBook sample_book) "Section 1" "<p>x</p>" "nav" =
  Returns (newBook sample_book, inl DuplicateIDError).
Proof. vm_compute. reflexivity. Qed.

(** ** Synthesized names *)








Example auto_name_first :
  auto_name KSection 1 "xhtml" = "section0001.xhtml" /\
  auto_name KSection 2 "xhtml" = "section0002.xhtml" /\
  auto_name KSection 123 "xhtml" = "section0123.xhtml".
Proof. repeat split; reflexivity. Qed.

(** ** Adding sections *)

Section Sections.

Variable L : layout.






End Sections.




(** ** Writing the archive *)

(** C7: [Write] succeeds on a Book whose documents are allocated when the
    destination can be written, and whenever [Write] succeeds the archive
    left at the destination starts with the mimetype entry, stored
    without compression, whose content is the text
    application/epub+zip. *)
Theorem Write_mimetype_first (L : layout) (W : world) (b : Book) (dest : string)
    (fs : gmap string (list entry)) :
  (allocated (doc b) = true -> writable W dest = true ->
   exists fs', Write L W b dest fs = Returns (fs', None)) /\
  (forall fs', Write L W b dest fs = Returns (fs', None) ->
   exists rest,
     fs' !! dest =
     Some (Entry (mimetypeFilename L) Store (Bytes "application/epub+zip") :: rest)).
Proof.
  unfold Write, archive. split.
  - intros Ha Hw. destruct (allocated_inv _ Ha) as (p & n & Hp & Hn).
    rewrite Hp, Hn. simpl. rewrite Hw. by eexists.
  - intros fs'. destruct (pkgdoc (doc b)) as [p|]; simpl; [|discriminate].
    destruct (toc (doc b)) as [n|]; simpl; [|discriminate].
    destruct (writable W dest); [|discriminate].
    intros [= <-]. eexists. apply lookup_insert_eq.
Qed.

Lemma Write_mimetype_first_witness :
  exists fs' rest,
    Write sample_layout sample_world (newBook sample_book) "My EPUB.epub" ∅ =
      Returns (fs', None) /\
    fs' !! "My EPUB.epub" =
    Some (Entry "mimetype" Store (Bytes "application/epub+zip") :: rest).
Proof.
  destruct (Write_mimetype_first sample_layout sample_world (newBook sample_book)
              "My EPUB.epub" ∅) as [Hok Hfirst].
  destruct (Hok eq_refl eq_refl) as (fs' & Hw).
  destruct (Hfirst fs' Hw) as (rest & Hl).
  exists fs', rest. split; assumption.
Defined.

(** * Further properties of [epub.go] *)

(** The whole Book a sequence of setter calls leaves. *)
Lemma run_final_state (cs : list call) : forall (e : epub) (p : Pkgdoc.t) (n : Toc.t),
  pkgdoc e = Some p -> toc e = Some n ->
  run cs e =
  Returns {| author := author e;
             lang := last_write lang_arg cs (lang e);
             pkgdoc := Some (overwritten cs p);
             title := last_write title_arg cs (title e);
             toc := Some {| Toc.title := last_write title_arg cs (Toc.title n);
                            Toc.uuid := last_write uuid_arg cs (Toc.uuid n);
                            Toc.navpoints := Toc.navpoints n |};
             uuid := last_write uuid_arg cs (uuid e) |}.
Proof.
  induction cs as [|c cs IH]; intros e p n Hp Hn.
  - destruct e as [ea el ep et en eu]; simpl in Hp, Hn; subst ep en.
    destruct p, n. reflexivity.
  - destruct e as [ea el ep et en eu]; simpl in Hp, Hn; subst ep en.
    rewrite overwritten_cons, !last_write_cons.
    destruct c as [v|v|v|v]; cbn [run perform];
      unfold SetAuthor, SetLang, SetTitle, SetUUID; cbn;
      erewrite IH by reflexivity; cbn;
      unfold overwritten; rewrite ?last_write_one; reflexivity.
Qed.

(** X1: a Book built by a successful [NewEpub] and then changed by any
    sequence of setter calls has both documents allocated, the same title
    and identifier in the Book, the package document and the navigation
    document, the same language in the Book and the package document, and
    an empty author field in the Book, whatever [SetAuthor] was given. *)
Theorem NewEpub_then_setters (w : env) (t : string) (n : Toc.t) (cs : list call) :
  newToc w = (Some n, None) ->
  exists e e',
    NewEpub w t = Returns (Some e, None) /\
    run cs e = Returns e' /\
    allocated e' = true /\ in_sync e' /\ author e' = "".
Proof.
  intros Hw. rewrite (NewEpub_success w t n Hw). eexists _, _.
  split; [reflexivity|]. split; [apply run_final_state; reflexivity|].
  split; [reflexivity|]. split; [|reflexivity].
  unfold in_sync, overwritten. cbn. repeat split; reflexivity.
Qed.

Lemma NewEpub_then_setters_witness :
  exists e e',
    NewEpub sample_env "My title" = Returns (Some e, None) /\
    run [CallSetAuthor "Hingle McCringleberry"; CallSetLang "fr";
         CallSetTitle "Other"] e = Returns e' /\
    allocated e' = true /\ in_sync e' /\ author e' = "".
Proof.
  exact (NewEpub_then_setters sample_env "My title" sample_toc
           [CallSetAuthor "Hingle McCringleberry"; CallSetLang "fr";
            CallSetTitle "Other"] eq_refl).
Defined.

(** X2: the identifier of a Book built by [NewEpub] is the generated
    identifier behind the prefix urn:uuid:, so two Books have the same
    identifier exactly when the generator drew the same one. *)
Theorem NewEpub_uuid (w1 w2 : env) (t1 t2 : string) (n1 n2 : Toc.t) :
  newToc w1 = (Some n1, None) -> newToc w2 = (Some n2, None) ->
  exists e1 e2,
    NewEpub w1 t1 = Returns (Some e1, None) /\
    NewEpub w2 t2 = Returns (Some e2, None) /\
    Uuid e1 = "urn:uuid:" +:+ NewV4 w1 /\
    (Uuid e1 = Uuid e2 <-> NewV4 w1 = NewV4 w2).
Proof.
  intros H1 H2. rewrite (NewEpub_success w1 t1 n1 H1), (NewEpub_success w2 t2 n2 H2).
  eexists _, _. split; [reflexivity|]. split; [reflexivity|].
  split; [reflexivity|]. unfold Uuid; cbn [uuid]. split.
  - intros H. by apply String.app_inj in H.
  - intros ->. reflexivity.
Qed.

Lemma NewEpub_uuid_witness :
  exists e1 e2,
    NewEpub sample_env "My title" = Returns (Some e1, None) /\
    NewEpub sample_env "Other" = Returns (Some e2, None) /\
    Uuid e1 = "urn:uuid:21ed94b4-f2ab-44c8-b99d-4f7792587ad6" /\
    (Uuid e1 = Uuid e2 <-> NewV4 sample_env = NewV4 sample_env).
Proof.
  exact (NewEpub_uuid sample_env sample_env "My title" "Other"
           sample_toc sample_toc eq_refl eq_refl).
Defined.

(** X3: on a Book whose fields agree with its documents, giving a setter
    the value its accessor returns changes nothing: [SetTitle (Title e)],
    [SetLang (Lang e)] and [SetUUID (Uuid e)] return the Book as it was. *)
Theorem setters_round_trip (e : epub) :
  in_sync e ->
  SetTitle e (Title e) = Returns e /\
  SetLang e (Lang e) = Returns e /\
  SetUUID e (Uuid e) = Returns e.
Proof.
  destruct e as [ea el [p|] et [n|] eu]; unfold in_sync; cbn; try tauto.
  destruct p, n. cbn. intros (-> & <- & -> & <- & ->). repeat split; reflexivity.
Qed.

Lemma setters_round_trip_witness :
  SetTitle sample_book "My title" = Returns sample_book /\
  SetLang sample_book "en" = Returns sample_book /\
  SetUUID sample_book "urn:uuid:21ed94b4-f2ab-44c8-b99d-4f7792587ad6" =
    Returns sample_book.
Proof.
  apply (setters_round_trip sample_book). cbv. repeat split; reflexivity.
Defined.



(** X5: on a Book whose documents are allocated, the Book a sequence of
    setter calls leaves depends only on the last value written to each
    field: two sequences with the same last title, language, author and
    identifier leave the same Book. *)
Theorem run_depends_on_last_writes (cs1 cs2 : list call) (e : epub) :
  allocated e = true ->
  last (omap title_arg cs1) = last (omap title_arg cs2) ->
  last (omap lang_arg cs1) = last (omap lang_arg cs2) ->
  last (omap author_arg cs1) = last (omap author_arg cs2) ->
  last (omap uuid_arg cs1) = last (omap uuid_arg cs2) ->
  exists e', run cs1 e = Returns e' /\ run cs2 e = Returns e'.
Proof.
  intros Ha Ht Hl Hau Hu. destruct (allocated_inv e Ha) as (p & n & Hp & Hn).
  rewrite (run_final_state cs1 e p n Hp Hn), (run_final_state cs2 e p n Hp Hn).
  eexists. split; [reflexivity|].
  unfold overwritten, last_write. rewrite Ht, Hl, Hau, Hu. reflexivity.
Qed.

Lemma run_depends_on_last_writes_witness :
  exists e',
    run [CallSetTitle "A"; CallSetLang "fr"; CallSetTitle "B"; CallSetTitle "B"]
        sample_book = Returns e' /\
    run [CallSetTitle "B"; CallSetLang "fr"] sample_book = Returns e'.
Proof.
  exact (run_depends_on_last_writes
           [CallSetTitle "A"; CallSetLang "fr"; CallSetTitle "B"; CallSetTitle "B"]
           [CallSetTitle "B"; CallSetLang "fr"] sample_book
           eq_refl eq_refl eq_refl eq_refl eq_refl).
Defined.

(** * Properties of the helpers of the tests *)

Section TestHelperFacts.

Import TestHelpers.

Lemma Split_nonempty (s : string) : Split s <> [].
Proof.
  induction s as [|c s IH]; simpl; [discriminate|].
  destruct (Ascii.eqb c "010"); [discriminate|].
  destruct (Split s); [contradiction|discriminate].
Qed.

(** Joining the pieces with the separator gives the string back. *)
Lemma Join_Split (s : string) : Join (Split s) newline = s.
Proof.
  unfold Join. induction s as [|c s IH]; [reflexivity|]. cbn [Split].
  destruct (Ascii.eqb_spec c "010") as [->|Hc].
  - pose proof (Split_nonempty s) as Hs.
    destruct (Split s) as [|l ls]; [contradiction|].
    cbn [String.concat]. cbn [String.concat] in IH. rewrite IH. reflexivity.
  - pose proof (Split_nonempty s) as Hs.
    destruct (Split s) as [|l ls]; [contradiction|].
    destruct ls as [|l' ls]; cbn [String.concat] in *.
    + by rewrite IH.
    + simpl. by rewrite <- IH.
Qed.

Lemma trimLoop_appends_nothing (TrimSpace : string -> string)
    (lines : list string) : forall trimmedLines : list string,
  trimLoop TrimSpace lines trimmedLines = trimmedLines.
Proof.
  induction lines as [|line rest IH]; intros acc; [reflexivity|].
  cbn [trimLoop]. destruct (negb _); rewrite IH; [apply app_nil_r|reflexivity].
Qed.

Lemma search_first_usable (Stat : string -> bool)
    (FilepathJoin : string -> string -> string) (items : list FileInfo) :
  search Stat FilepathJoin items "" =
  default "" (head (omap (usable Stat FilepathJoin) items)).
Proof.
  induction items as [|i rest IH]; [reflexivity|].
  cbn [search].
  change (omap (usable Stat FilepathJoin) (i :: rest))
    with (match usable Stat FilepathJoin i with
          | Some y => y :: omap (usable Stat FilepathJoin) rest
          | None => omap (usable Stat FilepathJoin) rest
          end).
  unfold usable.
  destruct (String.eqb (Name i) testEpubcheckJarfile); [reflexivity|].
  destruct (String.prefix testEpubcheckPrefix (Name i)); [|exact IH].
  destruct (IsDir i); [|exact IH]. cbn [andb].
  destruct (Stat _); [reflexivity|exact IH].
Qed.

End TestHelperFacts.

(** X6: [trimAllSpace] returns the empty string for every input, whatever
    [strings.TrimSpace] does: its loop appends no line to the result.  So
    the results for any two inputs are equal. *)
Theorem trimAllSpace_always_empty (TrimSpace : string -> string) (a b : string) :
  TestHelpers.trimAllSpace TrimSpace a = "" /\
  TestHelpers.trimAllSpace TrimSpace a = TestHelpers.trimAllSpace TrimSpace b.
Proof.
  unfold TestHelpers.trimAllSpace. rewrite !trimLoop_appends_nothing.
  split; reflexivity.
Qed.

(** X7: when no entry of the working directory is usable (none is called
    epubcheck.jar, and no directory whose name starts with epubcheck
    holds that file), also when the listing could not be read,
    [validateEpub] runs no command and returns empty output and no
    error. *)
Theorem validateEpub_skips
    (Getwd : string * option error)
    (ReadDir : string -> list TestHelpers.FileInfo * option error)
    (Stat : string -> bool) (FilepathJoin : string -> string -> string)
    (CombinedOutput : list string -> string * option error)
    (epubFilename : string) :
  Forall (fun i => TestHelpers.usable Stat FilepathJoin i = None)
         (fst (ReadDir (fst Getwd))) ->
  snd (TestHelpers.validateEpub Getwd ReadDir Stat FilepathJoin CombinedOutput
         epubFilename) = ("", None) /\
  TestHelpers.runs_command
    (fst (TestHelpers.validateEpub Getwd ReadDir Stat FilepathJoin CombinedOutput
            epubFilename)) = false.
Proof.
  intros Hnone. unfold TestHelpers.validateEpub.
  rewrite search_first_usable.
  assert (omap (TestHelpers.usable Stat FilepathJoin) (fst (ReadDir (fst Getwd))) = [])
    as ->.
  { induction Hnone as [|i l Hi _ IH]; [reflexivity|].
    change (omap (TestHelpers.usable Stat FilepathJoin) (i :: l))
      with (match TestHelpers.usable Stat FilepathJoin i with
            | Some y => y :: omap (TestHelpers.usable Stat FilepathJoin) l
            | None => omap (TestHelpers.usable Stat FilepathJoin) l
            end).
    rewrite Hi. exact IH. }
  cbn. split; [reflexivity|].
  unfold TestHelpers.runs_command. rewrite !existsb_app.
  destruct (snd Getwd), (snd (ReadDir (fst Getwd))); reflexivity.
Qed.

Lemma validateEpub_skips_witness :
  snd (TestHelpers.validateEpub ("/work", None)
         (fun _ => ([], Some (OtherError "permission denied")))
         TestHelpers.sample_Stat TestHelpers.sample_Join
         TestHelpers.sample_CombinedOutput "My EPUB.epub") = ("", None) /\
  TestHelpers.runs_command
    (fst (TestHelpers.validateEpub ("/work", None)
            (fun _ => ([], Some (OtherError "permission denied")))
            TestHelpers.sample_Stat TestHelpers.sample_Join
            TestHelpers.sample_CombinedOutput "My EPUB.epub")) = false.
Proof.
  apply (validateEpub_skips ("/work", None)
           (fun _ => ([], Some (OtherError "permission denied")))).
  constructor.
Defined.

(** X8: [validateEpub] takes the first usable entry in listing order:
    when the entries before [i] are not usable and [i] offers the
    non-empty path [p], it runs java -jar [p] on the file and returns
    what that command returns. *)
Theorem validateEpub_first_match
    (Getwd : string * option error)
    (ReadDir : string -> list TestHelpers.FileInfo * option error)
    (Stat : string -> bool) (FilepathJoin : string -> string -> string)
    (CombinedOutput : list string -> string * option error)
    (epubFilename p : string) (pre post : list TestHelpers.FileInfo)
    (i : TestHelpers.FileInfo) :
  fst (ReadDir (fst Getwd)) = pre ++ i :: post ->
  Forall (fun j => TestHelpers.usable Stat FilepathJoin j = None) pre ->
  TestHelpers.usable Stat FilepathJoin i = Some p -> p <> "" ->
  snd (TestHelpers.validateEpub Getwd ReadDir Stat FilepathJoin CombinedOutput
         epubFilename) = CombinedOutput ["java"; "-jar"; p; epubFilename] /\
  TestHelpers.runs_command
    (fst (TestHelpers.validateEpub Getwd ReadDir Stat FilepathJoin CombinedOutput
            epubFilename)) = true.
Proof.
  intros Hitems Hpre Hi Hp. unfold TestHelpers.validateEpub.
  rewrite search_first_usable, Hitems.
  assert (head (omap (TestHelpers.usable Stat FilepathJoin) (pre ++ i :: post)) = Some p)
    as ->.
  { clear Hitems. induction Hpre as [|j l Hj _ IH].
    - change (omap (TestHelpers.usable Stat FilepathJoin) ([] ++ i :: post))
        with (match TestHelpers.usable Stat FilepathJoin i with
              | Some y => y :: omap (TestHelpers.usable Stat FilepathJoin) post
              | None => omap (TestHelpers.usable Stat FilepathJoin) post
              end).
      rewrite Hi. reflexivity.
    - change (omap (TestHelpers.usable Stat FilepathJoin) ((j :: l) ++ i :: post))
        with (match TestHelpers.usable Stat FilepathJoin j with
              | Some y => y :: omap (TestHelpers.usable Stat FilepathJoin) (l ++ i :: post)
              | None => omap (TestHelpers.usable Stat FilepathJoin) (l ++ i :: post)
              end).
      rewrite Hj. exact IH. }
  cbv zeta. change (default "" (Some p)) with p.
  apply String.eqb_neq in Hp. rewrite Hp. cbn [fst snd].
  split; [reflexivity|].
  unfold TestHelpers.runs_command. rewrite !existsb_app. cbn.
  by rewrite !orb_true_r.
Qed.

Lemma validateEpub_first_match_witness :
  snd (TestHelpers.validateEpub ("/work", None)
         (fun _ => (TestHelpers.sample_listing, None))
         TestHelpers.sample_Stat TestHelpers.sample_Join
         TestHelpers.sample_CombinedOutput "My EPUB.epub") =
  TestHelpers.sample_CombinedOutput
    ["java"; "-jar"; "epubcheck-4.0.1/epubcheck.jar"; "My EPUB.epub"] /\
  TestHelpers.runs_command
    (fst (TestHelpers.validateEpub ("/work", None)
            (fun _ => (TestHelpers.sample_listing, None))
            TestHelpers.sample_Stat TestHelpers.sample_Join
            TestHelpers.sample_CombinedOutput "My EPUB.epub")) = true.
Proof.
  apply (validateEpub_first_match ("/work", None)
           (fun _ => (TestHelpers.sample_listing, None))
           TestHelpers.sample_Stat TestHelpers.sample_Join
           TestHelpers.sample_CombinedOutput "My EPUB.epub"
           "epubcheck-4.0.1/epubcheck.jar"
           [TestHelpers.MkFileInfo "epub.go" false;
            TestHelpers.MkFileInfo "epubcheck-4.0.1.zip" false]
           [] (TestHelpers.MkFileInfo "epubcheck-4.0.1" true)).
  - reflexivity.
  - repeat constructor.
  - reflexivity.
  - discriminate.
Defined.

(** X9: [SetLang] needs the package document only: on every Book whose
    package document is allocated, also one without a navigation
    document, it returns with the language written to the Book and to the
    package document, and leaves the navigation document and the Book's
    title, identifier and author as they were. *)
Theorem SetLang_needs_pkgdoc_only (e : epub) (v : string) (p : Pkgdoc.t) :
  pkgdoc e = Some p ->
  exists e' p',
    SetLang e v = Returns e' /\
    Lang e' = v /\ pkgdoc e' = Some p' /\ Pkgdoc.lang p' = v /\
    toc e' = toc e /\ Title e' = Title e /\ Uuid e' = Uuid e /\
    author e' = author e.
Proof.
  intros Hp. destruct e as [ea el ep et en eu]; simpl in Hp; subst ep.
  eexists _, _. split; [reflexivity|]. cbn. repeat split; reflexivity.
Qed.

Lemma SetLang_needs_pkgdoc_only_witness :
  exists e' p',
    SetLang {| author := ""; lang := ""; pkgdoc := Pkgdoc.newPkgdoc;
               title := ""; toc := None; uuid := "" |} "fr" = Returns e' /\
    Lang e' = "fr" /\ pkgdoc e' = Some p' /\ Pkgdoc.lang p' = "fr" /\
    toc e' = None.
Proof.
  destruct (SetLang_needs_pkgdoc_only
              {| author := ""; lang := ""; pkgdoc := Pkgdoc.newPkgdoc;
                 title := ""; toc := None; uuid := "" |} "fr" _ eq_refl)
    as (e' & p' & H1 & H2 & H3 & H4 & H5 & _).
  exists e', p'. repeat split; assumption.
Defined.
